(** * Shallow embedding of the react-ts-hooks-use-context demo

    The demo keeps two pieces of state:
    - the user, held by [UserProvider] ([context/user.tsx]) in a [useState]
      cell and shared through [UserContext];
    - the theme, held by [App] in a [useState] cell and passed down as props.
    [Header] reads the context and toggles the user between [null] and
    [defaultUser]; [DarkModeToggle] writes the theme; [Profile] renders from
    the context.

    A React [useState] cell is modelled as a value plus the list of the
    components subscribed to it (those re-rendered when it is written).  A
    write replaces the value and produces one notification per subscriber,
    tagged with the cell that was written.  React skips the re-render when the
    new value is the same as the old one ([Object.is]); this is modelled by a
    boolean equality passed to [write].  A component that re-renders also
    re-renders its children: when [App] re-renders after a theme write,
    [UserProvider] re-renders and hands its consumers a fresh context object,
    so [Header] and [Profile] re-run too. *)

From Stdlib Require Import String List Bool Arith Lia.
Import ListNotations.
Open Scope string_scope.

(** ** Data ([data.ts]) *)

Record User := mkUser { name : string; interests : list string }.

Definition defaultUser : User :=
  {| name := "Duane";
     interests := ["Coding"; "Biking"; "Words ending in 'ing'"] |}.

Fixpoint strings_eqb (l1 l2 : list string) : bool :=
  match l1, l2 with
  | [], [] => true
  | x :: xs, y :: ys => String.eqb x y && strings_eqb xs ys
  | _, _ => false
  end.

Definition user_eqb (u v : User) : bool :=
  String.eqb (name u) (name v) && strings_eqb (interests u) (interests v).

(** [User | null] *)
Definition user_opt_eqb (a b : option User) : bool :=
  match a, b with
  | None, None => true
  | Some u, Some v => user_eqb u v
  | _, _ => false
  end.

(** ** useState cells and notifications *)

(** The three [useState] cells of the program. *)
Inductive CellId := ThemeCell | AppUserCell | ProviderUserCell.

(** A component instance that re-renders when a cell it reads changes. *)
Definition Listener := nat.

Record Cell (A : Type) := mkCell { value : A; listeners : list Listener }.
Arguments mkCell {A} _ _.
Arguments value {A} _.
Arguments listeners {A} _.

Inductive Payload := PUser (u : option User) | PTheme (t : string).

Record Notification := mkNotif
  { n_cell : CellId; n_listener : Listener; n_payload : Payload }.

(** [setState(v)]: replace the value and re-render every subscriber once,
    unless the value did not change. *)
Definition write {A} (eqb : A -> A -> bool) (id : CellId) (inj : A -> Payload)
    (c : Cell A) (v : A) : Cell A * list Notification :=
  if eqb (value c) v then (c, [])
  else (mkCell v (listeners c),
        map (fun l => mkNotif id l (inj v)) (listeners c)).

(** [useState(init)] on mount. *)
Definition create {A} (init : A) (subs : list Listener) : Cell A :=
  mkCell init subs.

(** ** Context ([context/user.tsx]) *)

(** The [user] field read out of the context object: inside a provider it is
    [User | null]; on the placeholder default object [{}] it is [undefined]. *)
Inductive UserField := UFUndefined | UFNull | UFUser (u : User).

Definition truthy (f : UserField) : bool :=
  match f with UFUser _ => true | _ => false end.

Definition field_of (u : option User) : UserField :=
  match u with None => UFNull | Some x => UFUser x end.

Record UserContextType :=
  mkCtx { ctx_user : UserField; ctx_has_setUser : bool }.

(** [React.createContext({} as UserContextType)]: the default value seen
    by a consumer that has no enclosing provider. *)
Definition UserContext_default : UserContextType :=
  {| ctx_user := UFUndefined; ctx_has_setUser := false |}.

(** [<UserContext.Provider value={{ user, setUser }}>] *)
Definition provider_value (c : Cell (option User)) : UserContextType :=
  {| ctx_user := field_of (value c); ctx_has_setUser := true |}.

(** [useContext(UserContext)]: the nearest enclosing provider's value, or the
    context default when there is none. *)
Definition useContext (enclosing : option UserContextType) : UserContextType :=
  match enclosing with
  | Some v => v
  | None => UserContext_default
  end.

(** ** Views *)

Inductive View :=
  | H2 (text : string)
  | ProfileDiv (heading : View) (interests_view : View)
  | InterestsView (interests : list string) (theme : string)
  | ThemedButtonView (label : string) (theme : string).

(** [Profile] ([components/Profile.tsx]) *)
Definition Profile (theme : string) (ctx : UserContextType) : View :=
  match ctx_user ctx with
  | UFUser u =>
      ProfileDiv (H2 (name u ++ "'s Profile"))
                 (InterestsView (interests u) theme)
  | _ => H2 "Please Login To View Profile"
  end.

(** The login/logout button rendered by [Header]. *)
Definition Header_button (theme : string) (ctx : UserContextType) : View :=
  ThemedButtonView (if truthy (ctx_user ctx) then "Logout" else "Login") theme.

(** ** Application state and events *)

Record AppState := mkApp
  { theme_cell : Cell string;         (* App: useState("dark") *)
    app_user_cell : Cell (option User); (* App: useState<User|null>(null), unused *)
    user_cell : Cell (option User) }.  (* UserProvider: useState<User|null>(null) *)

(** Component instances: [App] reads both of its cells; [Header] and
    [Profile] read the provider's context. *)
Definition App_id : Listener := 0.
Definition Header_id : Listener := 1.
Definition Profile_id : Listener := 2.

Definition init : AppState :=
  {| theme_cell := create "dark" [App_id];
     app_user_cell := create None [App_id];
     user_cell := create None [Header_id; Profile_id] |}.

Inductive Event :=
  | ClickLogin               (* ThemedButton onClick = handleLogin *)
  | ToggleTheme (checked : bool). (* checkbox onChange = handleToggleTheme *)

Definition setUser (st : AppState) (v : option User) : AppState * list Notification :=
  let (c, ns) := write user_opt_eqb ProviderUserCell PUser (user_cell st) v in
  (mkApp (theme_cell st) (app_user_cell st) c, ns).

(** [UserProvider] re-rendering: it builds a new object literal
    [{ user, setUser }] on every render, so every consumer of [UserContext]
    re-runs, seeing the unchanged [user]. *)
Definition provider_rerender (st : AppState) : list Notification :=
  map (fun l => mkNotif ProviderUserCell l (PUser (value (user_cell st))))
      (listeners (user_cell st)).

(** [App]'s [setTheme]: [App] re-renders (when the value changed), and with
    it its child [UserProvider]. *)
Definition setTheme (st : AppState) (t : string) : AppState * list Notification :=
  let (c, ns) := write String.eqb ThemeCell PTheme (theme_cell st) t in
  (mkApp c (app_user_cell st) (user_cell st),
   if existsb (fun n => Nat.eqb (n_listener n) App_id) ns
   then (ns ++ provider_rerender st)%list
   else ns).

(** [Header.handleLogin]: [if (user) setUser(null) else setUser(defaultUser)],
    where [user] is read from the context. *)
Definition handleLogin (st : AppState) : AppState * list Notification :=
  if truthy (ctx_user (useContext (Some (provider_value (user_cell st)))))
  then setUser st None
  else setUser st (Some defaultUser).

(** [DarkModeToggle.handleToggleTheme]. *)
Definition handleToggleTheme (checked : bool) (st : AppState)
    : AppState * list Notification :=
  setTheme st (if checked then "dark" else "light").

Definition step (e : Event) (st : AppState) : AppState * list Notification :=
  match e with
  | ClickLogin => handleLogin st
  | ToggleTheme b => handleToggleTheme b st
  end.

Inductive reachable : AppState -> Prop :=
  | reach_init : reachable init
  | reach_step e st : reachable st -> reachable (fst (step e st)).

Fixpoint run (evs : list Event) (st : AppState) : AppState :=
  match evs with
  | [] => st
  | e :: es => run es (fst (step e st))
  end.

(** Number of re-renders of listener [l] in a batch of notifications. *)
Definition notified_count (l : Listener) (ns : list Notification) : nat :=
  length (filter (fun n => Nat.eqb (n_listener n) l) ns).

(** ** Helper lemmas *)

Lemma notified_count_map (id : CellId) (p : Payload) (ls : list Listener) l :
  notified_count l (map (fun x => mkNotif id x p) ls) = count_occ Nat.eq_dec ls l.
Proof.
  unfold notified_count; induction ls as [|x ls IH]; simpl; [reflexivity|].
  destruct (Nat.eq_dec x l) as [->|Hne].
  - rewrite Nat.eqb_refl; simpl; rewrite IH; reflexivity.
  - rewrite (proj2 (Nat.eqb_neq x l) Hne); exact IH.
Qed.

Lemma count_occ_NoDup_In (ls : list Listener) l :
  NoDup ls -> In l ls -> count_occ Nat.eq_dec ls l = 1.
Proof.
  intros Hnd Hin; induction Hnd as [|x ls Hx Hnd IH]; [destruct Hin|].
  simpl; destruct (Nat.eq_dec x l) as [->|Hne].
  - f_equal; apply count_occ_not_In; exact Hx.
  - apply IH; destruct Hin as [->|Hin]; [contradiction|exact Hin].
Qed.

Lemma user_opt_eqb_null_user u : user_opt_eqb None (Some u) = false.
Proof. reflexivity. Qed.

(** Writing a value different from the current one: the new value is stored
    and every subscriber receives one notification carrying it. *)
Lemma write_changed {A} eqb id (inj : A -> Payload) (c : Cell A) v :
  eqb (value c) v = false ->
  write eqb id inj c v =
    (mkCell v (listeners c), map (fun l => mkNotif id l (inj v)) (listeners c)).
Proof. intros H; unfold write; rewrite H; reflexivity. Qed.

Lemma write_value {A} eqb id (inj : A -> Payload) (c : Cell A) v :
  (forall a b, eqb a b = true -> a = b) ->
  value (fst (write eqb id inj c v)) = v.
Proof.
  intros Heq; unfold write; destruct (eqb (value c) v) eqn:E; simpl;
    [apply Heq; exact E | reflexivity].
Qed.

Lemma write_notifs {A} eqb id (inj : A -> Payload) (c : Cell A) v :
  Forall (fun n => n_cell n = id /\ In (n_listener n) (listeners c)
                   /\ n_payload n = inj v)
         (snd (write eqb id inj c v)).
Proof.
  unfold write; destruct (eqb (value c) v); simpl; [constructor|].
  apply Forall_forall; intros n Hn; apply in_map_iff in Hn.
  destruct Hn as [l [<- Hl]]; simpl; auto.
Qed.

Lemma handleLogin_user (st : AppState) :
  handleLogin st =
    match value (user_cell st) with
    | Some _ => setUser st None
    | None => setUser st (Some defaultUser)
    end.
Proof. unfold handleLogin; simpl; destruct (value (user_cell st)); reflexivity. Qed.

Lemma setUser_fst st v :
  fst (setUser st v) =
    mkApp (theme_cell st) (app_user_cell st) (fst (write user_opt_eqb ProviderUserCell PUser (user_cell st) v)).
Proof. unfold setUser; destruct (write _ _ _ _ _); reflexivity. Qed.

Lemma setUser_snd st v :
  snd (setUser st v) = snd (write user_opt_eqb ProviderUserCell PUser (user_cell st) v).
Proof. unfold setUser; destruct (write _ _ _ _ _); reflexivity. Qed.

Lemma setTheme_fst st t :
  fst (setTheme st t) =
    mkApp (fst (write String.eqb ThemeCell PTheme (theme_cell st) t)) (app_user_cell st) (user_cell st).
Proof. unfold setTheme; destruct (write _ _ _ _ _); reflexivity. Qed.

Lemma setTheme_snd st t :
  snd (setTheme st t) =
    let ns := snd (write String.eqb ThemeCell PTheme (theme_cell st) t) in
    if existsb (fun n => Nat.eqb (n_listener n) App_id) ns
    then (ns ++ provider_rerender st)%list else ns.
Proof. unfold setTheme; destruct (write _ _ _ _ _); reflexivity. Qed.

(** Every notification of a theme write is either for a subscriber of the
    theme cell, carrying the new theme, or a re-run of a consumer of the user
    context, carrying the unchanged user. *)
Lemma setTheme_notifs st t :
  Forall (fun n =>
    (n_cell n = ThemeCell /\ In (n_listener n) (listeners (theme_cell st)) /\
     n_payload n = PTheme t) \/
    (n_cell n = ProviderUserCell /\ In (n_listener n) (listeners (user_cell st)) /\
     n_payload n = PUser (value (user_cell st))))
    (snd (setTheme st t)).
Proof.
  rewrite setTheme_snd; cbv zeta.
  assert (Hw := write_notifs String.eqb ThemeCell PTheme (theme_cell st) t).
  assert (Hp : Forall (fun n =>
    n_cell n = ProviderUserCell /\ In (n_listener n) (listeners (user_cell st)) /\
    n_payload n = PUser (value (user_cell st))) (provider_rerender st)).
  { unfold provider_rerender; apply Forall_forall; intros n Hn.
    apply in_map_iff in Hn; destruct Hn as [l [<- Hl]]; simpl; auto. }
  destruct (existsb _ _); [apply Forall_app; split|];
    (eapply Forall_impl; [|eassumption]); simpl; auto.
Qed.

Lemma strings_eqb_sound l1 l2 : strings_eqb l1 l2 = true -> l1 = l2.
Proof.
  revert l2; induction l1 as [|x xs IH]; intros [|y ys]; simpl;
    try discriminate; [reflexivity|].
  intros H; apply andb_true_iff in H; destruct H as [Hx Hxs].
  apply String.eqb_eq in Hx; subst; f_equal; apply IH; exact Hxs.
Qed.

Lemma user_opt_eqb_sound a b : user_opt_eqb a b = true -> a = b.
Proof.
  destruct a as [[n1 i1]|], b as [[n2 i2]|]; simpl; try discriminate; [|reflexivity].
  unfold user_eqb; simpl; intros H; apply andb_true_iff in H; destruct H as [Hn Hi].
  apply String.eqb_eq in Hn; apply strings_eqb_sound in Hi; subst; reflexivity.
Qed.

Lemma string_eqb_sound a b : String.eqb a b = true -> a = b.
Proof. apply String.eqb_eq. Qed.

Lemma setUser_value st v : value (user_cell (fst (setUser st v))) = v.
Proof.
  rewrite setUser_fst; simpl; apply write_value; exact user_opt_eqb_sound.
Qed.

Lemma setTheme_value st t : value (theme_cell (fst (setTheme st t))) = t.
Proof.
  rewrite setTheme_fst; simpl; apply write_value; exact string_eqb_sound.
Qed.

Lemma reachable_user_inv st :
  reachable st -> value (user_cell st) = None \/ value (user_cell st) = Some defaultUser.
Proof.
  induction 1 as [|e st Hr IH]; [left; reflexivity|].
  destruct e as [|b]; simpl.
  - rewrite handleLogin_user; destruct IH as [-> | ->]; rewrite setUser_value; auto.
  - unfold handleToggleTheme; rewrite setTheme_fst; exact IH.
Qed.

Lemma NoDup_init_listeners : NoDup (listeners (user_cell init)).
Proof.
  simpl; constructor; [simpl; intros [H|[]]; discriminate|].
  constructor; [intros []|constructor].
Qed.

(** ** Claims *)

(** C1: from a logged-out state, clicking the login button stores
    [defaultUser] in the provider's cell, and every subscriber of that cell
    is re-rendered exactly once, with [defaultUser]. *)
Theorem login_sets_default_user (st : AppState) :
  value (user_cell st) = None ->
  NoDup (listeners (user_cell st)) ->
  let '(st', ns) := step ClickLogin st in
  value (user_cell st') = Some defaultUser /\
  (forall l, In l (listeners (user_cell st)) -> notified_count l ns = 1) /\
  Forall (fun n => n_cell n = ProviderUserCell /\
                   In (n_listener n) (listeners (user_cell st)) /\
                   n_payload n = PUser (Some defaultUser)) ns.
Proof.
  intros Hnull Hnd; simpl; rewrite handleLogin_user, Hnull.
  unfold setUser; rewrite write_changed by (rewrite Hnull; reflexivity).
  simpl; split; [reflexivity|split].
  - intros l Hl; rewrite notified_count_map; apply count_occ_NoDup_In; assumption.
  - apply Forall_forall; intros n Hn; apply in_map_iff in Hn.
    destruct Hn as [l [<- Hl]]; simpl; auto.
Qed.

Lemma login_sets_default_user_witness :
  value (user_cell init) = None /\ NoDup (listeners (user_cell init)) /\
  (let '(st', ns) := step ClickLogin init in
   value (user_cell st') = Some defaultUser /\
   (forall l, In l (listeners (user_cell init)) -> notified_count l ns = 1) /\
   Forall (fun n => n_cell n = ProviderUserCell /\
                    In (n_listener n) (listeners (user_cell init)) /\
                    n_payload n = PUser (Some defaultUser)) ns).
Proof.
  split; [reflexivity|split; [exact NoDup_init_listeners|]].
  apply (login_sets_default_user init); [reflexivity|exact NoDup_init_listeners].
Defined.

(** C4: from a logged-in state with any user record, clicking the logout
    button stores [null] in the provider's cell, and every subscriber of that
    cell is re-rendered exactly once, with [null]. *)
Theorem logout_sets_null (st : AppState) (u : User) :
  value (user_cell st) = Some u ->
  NoDup (listeners (user_cell st)) ->
  let '(st', ns) := step ClickLogin st in
  value (user_cell st') = None /\
  (forall l, In l (listeners (user_cell st)) -> notified_count l ns = 1) /\
  Forall (fun n => n_cell n = ProviderUserCell /\
                   In (n_listener n) (listeners (user_cell st)) /\
                   n_payload n = PUser None) ns.
Proof.
  intros Hu Hnd; simpl; rewrite handleLogin_user, Hu.
  unfold setUser; rewrite write_changed by (rewrite Hu; reflexivity).
  simpl; split; [reflexivity|split].
  - intros l Hl; rewrite notified_count_map; apply count_occ_NoDup_In; assumption.
  - apply Forall_forall; intros n Hn; apply in_map_iff in Hn.
    destruct Hn as [l [<- Hl]]; simpl; auto.
Qed.

Definition logged_in : AppState := run [ClickLogin] init.

Lemma logout_sets_null_witness :
  value (user_cell logged_in) = Some defaultUser /\
  NoDup (listeners (user_cell logged_in)) /\
  (let '(st', ns) := step ClickLogin logged_in in
   value (user_cell st') = None /\
   (forall l, In l (listeners (user_cell logged_in)) -> notified_count l ns = 1) /\
   Forall (fun n => n_cell n = ProviderUserCell /\
                    In (n_listener n) (listeners (user_cell logged_in)) /\
                    n_payload n = PUser None) ns).
Proof.
  split; [reflexivity|split; [exact NoDup_init_listeners|]].
  apply (logout_sets_null logged_in defaultUser);
    [reflexivity|exact NoDup_init_listeners].
Defined.

(** C3: right after mounting, the provider's user cell holds [null] and the
    theme cell holds ["dark"]; the context value seen by consumers carries
    [null]. *)
Theorem initial_state :
  value (user_cell init) = None /\ value (theme_cell init) = "dark" /\
  ctx_user (useContext (Some (provider_value (user_cell init)))) = UFNull.
Proof. repeat split. Qed.

(** C2: for every value of the provider's user cell, [Profile] renders the
    log-in placeholder exactly when the value is [null], and otherwise the
    heading ["<name>'s Profile"] followed by [Interests] given the user's
    interests list unchanged (also when that list is empty). *)
Theorem profile_render_consistent (c : Cell (option User)) (theme : string) :
  (Profile theme (useContext (Some (provider_value c)))
     = H2 "Please Login To View Profile" <-> value c = None) /\
  (forall u, value c = Some u ->
     Profile theme (useContext (Some (provider_value c)))
       = ProfileDiv (H2 (name u ++ "'s Profile"))
                    (InterestsView (interests u) theme)).
Proof.
  unfold Profile, useContext, provider_value; simpl.
  split.
  - destruct (value c); simpl; split; intros H; try discriminate; reflexivity.
  - intros u ->; reflexivity.
Qed.

Example profile_render_empty_interests :
  Profile "dark" (provider_value (create (Some (mkUser "Ann" [])) []))
    = ProfileDiv (H2 "Ann's Profile") (InterestsView [] "dark").
Proof. reflexivity. Qed.

(** C6: [Header] labels its button ["Login"] exactly when the provider's
    user cell holds [null] and ["Logout"] exactly when it holds a record. *)
Theorem header_label_consistent (c : Cell (option User)) (theme : string) :
  (Header_button theme (useContext (Some (provider_value c)))
     = ThemedButtonView "Login" theme <-> value c = None) /\
  (Header_button theme (useContext (Some (provider_value c)))
     = ThemedButtonView "Logout" theme <-> exists u, value c = Some u).
Proof.
  unfold Header_button, useContext, provider_value; simpl.
  destruct (value c) as [u|]; simpl; split; split; intros H;
    try discriminate; try reflexivity; eauto.
  - destruct H as [u H]; discriminate.
Qed.

(** C5 (as stated, refuted): outside any provider, [useContext(UserContext)]
    does not fail; it yields the placeholder default object and both
    consumers render from it. *)
Lemma missing_provider_no_failure :
  useContext None = UserContext_default /\
  Profile "dark" (useContext None) = H2 "Please Login To View Profile" /\
  Header_button "dark" (useContext None) = ThemedButtonView "Login" "dark".
Proof. repeat split. Qed.

(** C5 (amended): without an enclosing provider the accessor returns the
    context's default object [{}]: its [user] is [undefined] and it has no
    [setUser]; [Profile] renders the log-in placeholder and [Header] the
    ["Login"] button, whatever the theme. *)
Theorem missing_provider_default_object :
  useContext None = UserContext_default /\
  ctx_user (useContext None) = UFUndefined /\
  ctx_has_setUser (useContext None) = false /\
  (forall theme, Profile theme (useContext None) = H2 "Please Login To View Profile") /\
  (forall theme, Header_button theme (useContext None) = ThemedButtonView "Login" theme).
Proof. repeat split. Qed.

(** C7: in every reachable state the theme is ["dark"] or ["light"]; it starts
    as ["dark"]; the toggle writes ["dark"] when checked and ["light"]
    otherwise, and the login button leaves it alone. *)
Theorem theme_dark_or_light (st : AppState) :
  reachable st ->
  (value (theme_cell st) = "dark" \/ value (theme_cell st) = "light") /\
  value (theme_cell init) = "dark" /\
  (forall b, value (theme_cell (fst (step (ToggleTheme b) st)))
             = if b then "dark" else "light") /\
  theme_cell (fst (step ClickLogin st)) = theme_cell st.
Proof.
  intros Hr; split; [|split; [reflexivity|split]].
  - induction Hr as [|e st Hr IH]; [left; reflexivity|].
    destruct e as [|b]; simpl.
    + unfold handleLogin; destruct (truthy _); rewrite setUser_fst; exact IH.
    + unfold handleToggleTheme; rewrite setTheme_value; destruct b; auto.
  - intros b; simpl; unfold handleToggleTheme; apply setTheme_value.
  - simpl; unfold handleLogin; destruct (truthy _); rewrite setUser_fst; reflexivity.
Qed.

Lemma theme_dark_or_light_witness :
  reachable init /\
  ((value (theme_cell init) = "dark" \/ value (theme_cell init) = "light") /\
   value (theme_cell init) = "dark" /\
   (forall b, value (theme_cell (fst (step (ToggleTheme b) init)))
              = if b then "dark" else "light") /\
   theme_cell (fst (step ClickLogin init)) = theme_cell init).
Proof. split; [exact reach_init | apply (theme_dark_or_light init reach_init)]. Defined.



(** C9: in every reachable state the provider's user cell holds [null] or
    [defaultUser], and no step notifies subscribers with any other record. *)
Theorem user_null_or_default (st : AppState) :
  reachable st ->
  (value (user_cell st) = None \/ value (user_cell st) = Some defaultUser) /\
  (forall e n u, In n (snd (step e st)) -> n_payload n = PUser u ->
     u = None \/ u = Some defaultUser).
Proof.
  intros Hr; split; [exact (reachable_user_inv st Hr)|].
  intros e n u Hin Hp; destruct e as [|b]; simpl in Hin.
  - unfold handleLogin in Hin; destruct (truthy _); rewrite setUser_snd in Hin;
      (eapply Forall_forall in Hin; [|apply write_notifs]);
      destruct Hin as [_ [_ Hp']]; rewrite Hp in Hp'; injection Hp' as ->; auto.
  - unfold handleToggleTheme in Hin.
    eapply Forall_forall in Hin; [|apply setTheme_notifs].
    destruct Hin as [[_ [_ Hp']]|[_ [_ Hp']]]; rewrite Hp in Hp';
      [discriminate|injection Hp' as ->; exact (reachable_user_inv st Hr)].
Qed.

Lemma user_null_or_default_witness :
  reachable logged_in /\
  ((value (user_cell logged_in) = None \/
    value (user_cell logged_in) = Some defaultUser) /\
   (forall e n u, In n (snd (step e logged_in)) -> n_payload n = PUser u ->
      u = None \/ u = Some defaultUser)).
Proof.
  split; [exact (reach_step ClickLogin init reach_init)|].
  apply (user_null_or_default logged_in (reach_step ClickLogin init reach_init)).
Defined.

(** C10: on reachable states, clicking the login/logout button twice in a row
    gives the provider's user cell back the value it had. *)
Theorem login_click_involution (st : AppState) :
  reachable st ->
  value (user_cell (run [ClickLogin; ClickLogin] st)) = value (user_cell st).
Proof.
  intros Hr; simpl.
  destruct (reachable_user_inv st Hr) as [H | H].
  - rewrite (handleLogin_user st), H.
    rewrite (handleLogin_user (fst (setUser st (Some defaultUser)))), setUser_value.
    apply setUser_value.
  - rewrite (handleLogin_user st), H.
    rewrite (handleLogin_user (fst (setUser st None))), setUser_value.
    apply setUser_value.
Qed.

Lemma login_click_involution_witness :
  reachable logged_in /\
  value (user_cell (run [ClickLogin; ClickLogin] logged_in))
    = value (user_cell logged_in).
Proof.
  split; [exact (reach_step ClickLogin init reach_init)|].
  apply (login_click_involution logged_in (reach_step ClickLogin init reach_init)).
Defined.

(** ** Rendered element tree of [App] *)

(** Host elements produced by the components of the tree. *)
#[local] Set Warnings "-register-all".
Inductive Node :=
  | NMain (className : string) (children : list Node)
  | NProvider (children : list Node)
  | NHeader (children : list Node)
  | NH1 (text : string)
  | NNav (children : list Node)
  | NButton (className : string) (label : string)
  | NCheckboxLabel (text : string) (checked : bool)
  | NProfile (v : View).

(** [ThemedButton] ([components/ThemedButton.tsx]):
    [<button className={theme} {...props} />]; the spread comes after
    [className], so a [className] among the props replaces the theme. *)
Definition ThemedButton (theme : string) (className : option string)
    (children : string) : Node :=
  NButton (match className with Some c => c | None => theme end) children.

(** [DarkModeToggle]: [<label>Dark Mode <input type="checkbox"
    checked={theme === "dark"} .../></label>] *)
Definition DarkModeToggle (theme : string) : Node :=
  NCheckboxLabel "Dark Mode" (String.eqb theme "dark").

(** [Header] ([components/Header.tsx]) *)
Definition Header (theme : string) (ctx : UserContextType) : Node :=
  NHeader [NH1 "React Context";
           NNav [ThemedButton theme None
                   (if truthy (ctx_user ctx) then "Logout" else "Login");
                 DarkModeToggle theme]].

(** [App]: [<main className={theme}><UserProvider><Header/><Profile/>
    </UserProvider></main>] *)
Definition App (st : AppState) : Node :=
  let theme := value (theme_cell st) in
  let ctx := useContext (Some (provider_value (user_cell st))) in
  NMain theme [NProvider [Header theme ctx; NProfile (Profile theme ctx)]].

(** The checkbox state shown to the user, and a click on it: the browser
    fires [onChange] with the flipped [checked]. *)
Definition checkbox_checked (st : AppState) : bool :=
  String.eqb (value (theme_cell st)) "dark".

Definition click_checkbox (st : AppState) : AppState * list Notification :=
  step (ToggleTheme (negb (checkbox_checked st))) st.

(** [handleLogin] run against an arbitrary context object: the value handed
    to [setUser], or [None] when [setUser] is missing from the object (the
    call [setUser(...)] throws a [TypeError]). *)
Definition handleLogin_call (ctx : UserContextType) : option (option User) :=
  let v := if truthy (ctx_user ctx) then None else Some defaultUser in
  if ctx_has_setUser ctx then Some v else None.

(** ** Helper lemmas on reachable states *)

Lemma reachable_listeners st :
  reachable st ->
  listeners (theme_cell st) = [App_id] /\
  app_user_cell st = app_user_cell init /\
  listeners (user_cell st) = [Header_id; Profile_id].
Proof.
  induction 1 as [|e st Hr IH]; [repeat split|].
  destruct IH as [Ht [Ha Hu]]; destruct e as [|b]; simpl.
  - unfold handleLogin; destruct (truthy _); rewrite setUser_fst; simpl;
      (split; [exact Ht|split; [exact Ha|]]);
      unfold write; destruct (user_opt_eqb _ _); simpl; exact Hu.
  - unfold handleToggleTheme; rewrite setTheme_fst; simpl.
    split; [|split; [exact Ha|exact Hu]].
    unfold write; destruct (String.eqb _ _); simpl; exact Ht.
Qed.

Lemma reachable_theme st :
  reachable st ->
  value (theme_cell st) = "dark" \/ value (theme_cell st) = "light".
Proof.
  induction 1 as [|e st Hr IH]; [left; reflexivity|].
  destruct e as [|b]; simpl.
  - unfold handleLogin; destruct (truthy _); rewrite setUser_fst; exact IH.
  - unfold handleToggleTheme; rewrite setTheme_value; destruct b; auto.
Qed.

Lemma run_reachable evs st : reachable st -> reachable (run evs st).
Proof.
  revert st; induction evs as [|e es IH]; intros st Hr; simpl;
    [exact Hr|apply IH; constructor; exact Hr].
Qed.

(** Number of login/logout clicks in an event sequence. *)
Fixpoint login_clicks (evs : list Event) : nat :=
  match evs with
  | [] => 0
  | ClickLogin :: es => S (login_clicks es)
  | ToggleTheme _ :: es => login_clicks es
  end.

(** The [checked] value of the last toggle event, if any. *)
Fixpoint last_toggle (evs : list Event) : option bool :=
  match evs with
  | [] => None
  | ClickLogin :: es => last_toggle es
  | ToggleTheme b :: es =>
      match last_toggle es with Some b' => Some b' | None => Some b end
  end.

(** The value [handleLogin] writes, as a function of the current one. *)
Definition flip_user (u : option User) : option User :=
  match u with Some _ => None | None => Some defaultUser end.

Lemma handleLogin_value st :
  value (user_cell (fst (handleLogin st))) = flip_user (value (user_cell st)).
Proof. rewrite handleLogin_user; destruct (value (user_cell st)); apply setUser_value. Qed.

Lemma handleToggleTheme_user b st :
  user_cell (fst (handleToggleTheme b st)) = user_cell st.
Proof. unfold handleToggleTheme; rewrite setTheme_fst; reflexivity. Qed.

Lemma handleLogin_theme st :
  theme_cell (fst (handleLogin st)) = theme_cell st.
Proof. unfold handleLogin; destruct (truthy _); rewrite setUser_fst; reflexivity. Qed.

Lemma run_user_value evs st :
  value (user_cell (run evs st)) = Nat.iter (login_clicks evs) flip_user (value (user_cell st)).
Proof.
  revert st; induction evs as [|[|b] es IH]; intros st; simpl; [reflexivity| |].
  - rewrite IH, handleLogin_value, <- Nat.iter_succ_r; reflexivity.
  - rewrite IH, handleToggleTheme_user; reflexivity.
Qed.

Lemma iter_flip_null n :
  Nat.iter n flip_user None = if Nat.odd n then Some defaultUser else None.
Proof.
  induction n as [|n IH]; [reflexivity|].
  simpl Nat.iter; rewrite IH, Nat.odd_succ, <- Nat.negb_odd.
  destruct (Nat.odd n); reflexivity.
Qed.

Lemma run_theme_value evs st :
  value (theme_cell (run evs st)) =
    match last_toggle evs with
    | Some b => if b then "dark" else "light"
    | None => value (theme_cell st)
    end.
Proof.
  revert st; induction evs as [|[|b] es IH]; intros st; simpl; [reflexivity| |].
  - rewrite IH, handleLogin_theme; reflexivity.
  - rewrite IH; destruct (last_toggle es); [reflexivity|].
    unfold handleToggleTheme; apply setTheme_value.
Qed.

(** ** Further properties of the program *)

(** [App] passes one theme down to every themed element: the [<main>] class,
    the login button's class, the dark-mode checkbox and the [Interests]
    list, and that theme is ["dark"] or ["light"]. *)
Theorem app_theme_prop_drilling (st : AppState) :
  reachable st ->
  let t := value (theme_cell st) in
  (t = "dark" \/ t = "light") /\
  exists label p,
    App st = NMain t [NProvider [NHeader [NH1 "React Context";
                                          NNav [NButton t label;
                                                NCheckboxLabel "Dark Mode" (String.eqb t "dark")]];
                                 NProfile p]] /\
    (forall h is th, p = ProfileDiv h (InterestsView is th) -> th = t).
Proof.
  intros Hr; cbv zeta; split; [exact (reachable_theme st Hr)|].
  unfold App, Header, ThemedButton, DarkModeToggle; simpl.
  eexists; eexists; split; [reflexivity|].
  intros h is th; unfold Profile; simpl.
  destruct (value (user_cell st)); simpl; [|discriminate].
  congruence.
Qed.

Lemma app_theme_prop_drilling_witness :
  reachable logged_in /\
  let t := value (theme_cell logged_in) in
  (t = "dark" \/ t = "light") /\
  exists label p,
    App logged_in = NMain t [NProvider [NHeader [NH1 "React Context";
                                          NNav [NButton t label;
                                                NCheckboxLabel "Dark Mode" (String.eqb t "dark")]];
                                 NProfile p]] /\
    (forall h is th, p = ProfileDiv h (InterestsView is th) -> th = t).
Proof.
  split; [exact (reach_step ClickLogin init reach_init)|].
  exact (app_theme_prop_drilling logged_in (reach_step ClickLogin init reach_init)).
Defined.

(** [Header] and [Profile] read the same context: the button says
    ["Logout"] exactly when [Profile] shows a profile rather than the
    placeholder. *)
Theorem header_profile_agree (c : Cell (option User)) (theme : string) :
  let ctx := useContext (Some (provider_value c)) in
  Header theme ctx = NHeader [NH1 "React Context";
                              NNav [NButton theme "Logout"; DarkModeToggle theme]]
  <-> exists h iv, Profile theme ctx = ProfileDiv h iv.
Proof.
  simpl; unfold Header, ThemedButton, Profile; simpl.
  destruct (value c); simpl; split; intros H.
  - eauto.
  - reflexivity.
  - discriminate.
  - destruct H as [h [iv H]]; discriminate.
Qed.

(** Clicking the dark-mode checkbox flips the theme between ["dark"] and
    ["light"]; it re-renders [App] once with the new theme and, through
    [UserProvider]'s fresh context object, [Header] and [Profile] once each
    with the unchanged user; two clicks restore the theme. *)
Theorem checkbox_click_flips_theme (st : AppState) :
  reachable st ->
  let t' := if String.eqb (value (theme_cell st)) "dark" then "light" else "dark" in
  value (theme_cell (fst (click_checkbox st))) = t' /\
  snd (click_checkbox st) =
    [mkNotif ThemeCell App_id (PTheme t');
     mkNotif ProviderUserCell Header_id (PUser (value (user_cell st)));
     mkNotif ProviderUserCell Profile_id (PUser (value (user_cell st)))] /\
  value (theme_cell (fst (click_checkbox (fst (click_checkbox st)))))
    = value (theme_cell st).
Proof.
  intros Hr; cbv zeta.
  destruct (reachable_listeners st Hr) as [Hl [_ Hu]].
  unfold click_checkbox, checkbox_checked; simpl; unfold handleToggleTheme.
  destruct (reachable_theme st Hr) as [Ht|Ht]; rewrite Ht; simpl;
    unfold setTheme, write, provider_rerender; rewrite Ht, Hl, Hu; simpl;
    repeat split.
Qed.

Lemma checkbox_click_flips_theme_witness :
  reachable init /\
  (let t' := if String.eqb (value (theme_cell init)) "dark" then "light" else "dark" in
   value (theme_cell (fst (click_checkbox init))) = t' /\
   snd (click_checkbox init) =
     [mkNotif ThemeCell App_id (PTheme t');
      mkNotif ProviderUserCell Header_id (PUser (value (user_cell init)));
      mkNotif ProviderUserCell Profile_id (PUser (value (user_cell init)))] /\
   value (theme_cell (fst (click_checkbox (fst (click_checkbox init)))))
     = value (theme_cell init)).
Proof. split; [exact reach_init|exact (checkbox_click_flips_theme init reach_init)]. Defined.

(** [App]'s own [useState<User | null>(null)] is dead state: it keeps its
    initial [null] in every reachable state and no event ever writes it. *)
Theorem app_user_state_unused (st : AppState) :
  reachable st ->
  value (app_user_cell st) = None /\
  forall e, Forall (fun n => n_cell n <> AppUserCell) (snd (step e st)).
Proof.
  intros Hr; split.
  - destruct (reachable_listeners st Hr) as [_ [Ha _]]; rewrite Ha; reflexivity.
  - intros [|b]; simpl.
    + unfold handleLogin; destruct (truthy _); rewrite setUser_snd;
        (eapply Forall_impl; [|apply write_notifs]);
        simpl; intros n [-> _]; discriminate.
    + unfold handleToggleTheme.
      eapply Forall_impl; [|apply setTheme_notifs]; simpl;
        intros n [[-> _]|[-> _]]; discriminate.
Qed.

Lemma app_user_state_unused_witness :
  reachable logged_in /\
  (value (app_user_cell logged_in) = None /\
   forall e, Forall (fun n => n_cell n <> AppUserCell) (snd (step e logged_in))).
Proof.
  split; [exact (reach_step ClickLogin init reach_init)|].
  exact (app_user_state_unused logged_in (reach_step ClickLogin init reach_init)).
Defined.

(** In every reachable state a login/logout click re-renders the two context
    consumers, [Header] and [Profile], exactly once each, and notifies
    nothing through [App]'s own cells. *)
Theorem login_click_rerenders_consumers (st : AppState) :
  reachable st ->
  notified_count Header_id (snd (step ClickLogin st)) = 1 /\
  notified_count Profile_id (snd (step ClickLogin st)) = 1 /\
  notified_count App_id (snd (step ClickLogin st)) = 0.
Proof.
  intros Hr.
  destruct (reachable_listeners st Hr) as [_ [_ Hu]].
  simpl; rewrite handleLogin_user.
  destruct (reachable_user_inv st Hr) as [H|H]; rewrite H;
    rewrite setUser_snd, write_changed by (rewrite H; reflexivity);
    rewrite Hu; repeat split.
Qed.

Lemma login_click_rerenders_consumers_witness :
  reachable init /\
  (notified_count Header_id (snd (step ClickLogin init)) = 1 /\
   notified_count Profile_id (snd (step ClickLogin init)) = 1 /\
   notified_count App_id (snd (step ClickLogin init)) = 0).
Proof. split; [exact reach_init|exact (login_click_rerenders_consumers init reach_init)]. Defined.

(** [handleLogin] against the context object it reads: outside a provider the
    object has no [setUser], so the click throws; inside a provider it calls
    [setUser] with exactly the value the provider's cell then holds. *)
Theorem handleLogin_context_call (st : AppState) :
  handleLogin_call (useContext None) = None /\
  handleLogin_call (useContext (Some (provider_value (user_cell st))))
    = Some (value (user_cell (fst (handleLogin st)))).
Proof.
  split; [reflexivity|].
  rewrite handleLogin_value; unfold handleLogin_call; simpl.
  destruct (value (user_cell st)); reflexivity.
Qed.

(** After any sequence of UI events from mount, the user is [defaultUser]
    when the number of login/logout clicks is odd and [null] when it is
    even; theme toggles do not matter. *)
Theorem run_user_parity (evs : list Event) :
  value (user_cell (run evs init))
    = if Nat.odd (login_clicks evs) then Some defaultUser else None.
Proof. rewrite run_user_value; apply iter_flip_null. Qed.

(** After any sequence of UI events from mount, the theme is the one set by
    the last checkbox change (["dark"] when it was checked, ["light"]
    otherwise), or ["dark"] when there was none; login clicks do not
    matter. *)
Theorem run_theme_last_toggle (evs : list Event) :
  value (theme_cell (run evs init))
    = match last_toggle evs with
      | Some b => if b then "dark" else "light"
      | None => "dark"
      end.
Proof. apply run_theme_value. Qed.
